(** * redback: prior files and the non-detection notebook

    A shallow embedding of the parts of the redback repository that its
    specification talks about:

    - the shipped [.prior] configuration files under [redback/priors],
      transcribed assignment by assignment;
    - the cells of [examples/handling_non_detections.ipynb]: boolean
      masks, masked selection and assignment, the plotting loops, the
      dictionaries of parameters and priors;
    - the reader of prior files and the likelihood with upper limits,
      whose Python code is not part of the sources and which are modelled
      from the specification and the notebook text.

    Numbers are exact: a decimal literal of a prior file is a rational, the
    quantities of the likelihood are real numbers. *)

From Stdlib Require Import Reals Lra QArith Qreals.
From stdpp Require Import gmap strings list fin_maps.

(** ** Python values that occur on the right of an assignment *)

Module Prior.

(** Numeric expressions of the prior files: decimal literals such as
    [1e-3], [0.4], [-100], and the one arithmetic expression [np.pi/2]. *)
Inductive expr : Type :=
  | Num (q : Q)
  | NpPi
  | Div (a b : expr).

Fixpoint eval (e : expr) : R :=
  match e with
  | Num q => Q2R q
  | NpPi => PI
  | Div a b => (eval a / eval b)%R
  end.

(** An argument of a call is a number or a (raw) string. *)
Inductive pyarg : Type :=
  | Val (e : expr)
  | Str (s : string).

(** [Cls(p0, p1, ..., k0=v0, ...)]: positional arguments in order and the
    keyword arguments in order. *)
Record call : Type := Call {
  callee : string;
  positional : list pyarg;
  keywords : list (string * pyarg)
}.

(** The right-hand side of [key = value]: a bare number or a call. *)
Inductive rhs : Type :=
  | Literal (e : expr)
  | Dist (c : call).

Abbreviation assignment := (string * rhs)%type.
Abbreviation prior_file := (list (string * rhs)).

(** ** Reading the arguments of a distribution call

    bilby's analytical priors are declared
    [Uniform(minimum, maximum, name, latex_label, ...)],
    [LogUniform(minimum, maximum, name, latex_label, ...)] and
    [Sine(minimum, maximum, name, latex_label, ...)]: an argument is found
    under its keyword, and otherwise at its position. *)

Fixpoint keyword (kw : string) (kws : list (string * pyarg)) : option pyarg :=
  match kws with
  | [] => None
  | (k, v) :: rest => if String.eqb k kw then Some v else keyword kw rest
  end.

Definition argument (kw : string) (pos : nat) (c : call) : option pyarg :=
  match keyword kw (keywords c) with
  | Some v => Some v
  | None => positional c !! pos
  end.

Definition minimum (c : call) : option pyarg := argument "minimum" 0 c.
Definition maximum (c : call) : option pyarg := argument "maximum" 1 c.
Definition name (c : call) : option pyarg := argument "name" 2 c.
Definition latex_label (c : call) : option pyarg := argument "latex_label" 3 c.

(** ** The shipped prior files *)

(** [Cls(lo, hi, 'name', latex_label=r'...')] *)
Definition by_position (cls : string) (lo hi : Q) (nm label : string) : rhs :=
  Dist (Call cls [Val (Num lo); Val (Num hi); Str nm] [("latex_label", Str label)]).

(** [Cls(lo, hi, name='name', latex_label=r'...')] *)
Definition by_keyword (cls : string) (lo hi : Q) (nm label : string) : rhs :=
  Dist (Call cls [Val (Num lo); Val (Num hi)]
             [("name", Str nm); ("latex_label", Str label)]).

(** redback/priors/csm_shock_breakout.prior, first document (lines 1-7). *)
Definition csm_shock_breakout : prior_file :=
  [ ("redshift", by_position "Uniform" 0.01 1 "redshift" "$z$");
    ("csm_mass", by_position "LogUniform" 1e-3 2 "csm_mass"
       "$M_{\mathrm{CSM}}~(M_{\odot})$");
    ("v_min", by_position "LogUniform" 1e3 3e4 "vej"
       "$v_{\mathrm{ej}}~(\mathrm{km}/\mathrm{s})$");
    ("beta", by_position "Uniform" 0.4 0.5 "beta" "$\\beta$");
    ("kappa", by_position "Uniform" 0.01 1 "kappa"
       "$\\kappa~(\mathrm{cm}^{2}/\mathrm{g})$");
    ("shell_radius", by_position "Uniform" 1e-2 10 "shell_radius"
       "$R_{\mathrm{shell}}~(10^{14}~\mathrm{cm})$");
    ("shell_width_ratio", by_position "Uniform" 0.1 0.5 "shell_width_ratio"
       "$\\Delta~R_{\mathrm{shell}}/R_{\mathrm{shell}}$") ].

(** redback/priors/csm_shock_breakout.prior, second document (lines 7-13):
    the same parameters with wider ranges. *)
Definition csm_shock_breakout_wide : prior_file :=
  [ ("redshift", by_position "Uniform" 0.01 1 "redshift" "$z$");
    ("csm_mass", by_position "LogUniform" 1e-3 10 "csm_mass"
       "$M_{\mathrm{CSM}}~(M_{\odot})$");
    ("v_min", by_position "LogUniform" 1e3 1e5 "vej"
       "$v_{\mathrm{ej}}~(\mathrm{km}/\mathrm{s})$");
    ("beta", by_position "Uniform" 0.1 0.5 "beta" "$\\beta$");
    ("kappa", by_position "Uniform" 0.05 2 "kappa"
       "$\\kappa~(\mathrm{cm}^{2}/\mathrm{g})$");
    ("shell_radius", by_position "Uniform" 1e-2 1e2 "shell_radius"
       "$R_{\mathrm{shell}}~(10^{14}~\mathrm{cm})$");
    ("shell_width_ratio", by_position "Uniform" 0.1 0.9 "shell_width_ratio"
       "$\\Delta~R_{\mathrm{shell}}/R_{\mathrm{shell}}$") ].

(** redback/priors/gaussianrise_cooling_envelope.prior *)
Definition gaussianrise_cooling_envelope : prior_file :=
  [ ("redshift", by_position "Uniform" 1e-6 3 "redshift" "$z$");
    ("peak_time", by_keyword "LogUniform" 0.1 60 "peak_time"
       "$t_{\mathrm{peak}}~(\mathrm{day})$");
    ("sigma_t", by_keyword "LogUniform" 10 60 "sigma_t"
       "$\\sigma~(\mathrm{day})$");
    ("mbh_6", by_keyword "LogUniform" 0.01 20 "mbh_6"
       "$M_{\mathrm{BH}}~(10^{6}~M_\odot)$");
    ("stellar_mass", by_keyword "LogUniform" 0.1 10 "stellar_mass"
       "$M_{\mathrm{star}}~(M_\odot)$");
    ("eta", by_keyword "LogUniform" 1e-4 0.1 "eta" "$\\eta$");
    ("alpha", by_keyword "LogUniform" 0.1 1 "alpha" "$\\alpha$");
    ("beta", by_keyword "Uniform" 1 5 "beta" "$\\beta$");
    ("beta", Literal (Num 0.9));
    ("eta", Literal (Num 0.1));
    ("alpha", Literal (Num 0.1));
    ("mbh_6", Literal (Num 1)) ].

(** redback/priors/stream_stream_tde.prior *)
Definition stream_stream_tde : prior_file :=
  [ ("redshift", by_position "Uniform" 1e-6 3 "redshift" "$z$");
    ("peak_time", by_keyword "LogUniform" 0.1 60 "peak_time"
       "$t_{\mathrm{peak}}~(\mathrm{day})$");
    ("sigma_t", by_keyword "LogUniform" 10 60 "sigma_t"
       "$\\sigma~(\mathrm{day})$");
    ("mbh_6", by_keyword "LogUniform" 0.01 20 "mbh_6"
       "$M_{\mathrm{BH}}~(10^{6}~M_\odot)$");
    ("mstar", by_keyword "LogUniform" 0.1 10 "stellar_mass"
       "$M_{\mathrm{star}}~(M_\odot)$");
    ("c1", Literal (Num 1.0));
    ("del_omega", Literal (Num 2.0));
    ("f", Literal (Num 0.2));
    ("h_r", Literal (Num 0.2));
    ("inc_tcool", Literal (Num 1)) ].

(** redback/priors/non_default_priors/fitted_exp_decay.prior *)
Definition fitted_exp_decay : prior_file :=
  [ ("redshift", by_position "Uniform" 1e-6 3 "redshift" "$z$");
    ("log_mh", by_keyword "Uniform" 0 10 "log_mh"
       "$\log_{10}~M_{\mathrm{BH}}~(M_\odot)$");
    ("a_mh", by_keyword "Uniform" (-1) 1 "a_mh" "$a_{\mathrm{BH}}$");
    ("m_disc", by_keyword "LogUniform" 1e-3 10 "m_disc"
       "$M_{\mathrm{star}}~(M_\odot)$");
    ("r0", by_keyword "Uniform" 10 100 "r0" "$r_0~(r_g)$");
    ("tvi", by_keyword "LogUniform" 1 1000 "tvi"
       "$t_{\mathrm{vi}}~(\mathrm{day})$");
    ("t_form", by_keyword "Uniform" (-100) 365 "t_form"
       "$t_{\mathrm{form}}~(\mathrm{day})$");
    ("incl", Dist (Call "Sine" []
       [("name", Str "incl"); ("maximum", Val (Div NpPi (Num 2)));
        ("latex_label", Str "$\\theta_{\mathrm{observer}}~(\mathrm{rad})$")]));
    ("log_L", by_keyword "Uniform" 40 48 "log_L"
       "$\log_{10}~L_{\mathrm{peak}}~(\mathrm{erg s}^{-1})$");
    ("t_decay", by_keyword "LogUniform" 1 1000 "t_decay"
       "$t_{\mathrm{decay}}~(\mathrm{day})$");
    ("log_T", by_keyword "Uniform" 3.5 5.5 "log_T"
       "$\log_{10}~T_{\mathrm{peak}}~(\mathrm{K})$");
    ("sigma_t", by_keyword "LogUniform" 1 1000 "sigma_t"
       "$\sigma_t~(\mathrm{day})$");
    ("t_peak", by_keyword "Uniform" (-100) 100 "t_peak"
       "$t_{\mathrm{peak}}~(\mathrm{day})$") ].

(** Every shipped file, under the path it has in the repository. *)
Definition shipped : list (string * prior_file) :=
  [ ("redback/priors/csm_shock_breakout.prior", csm_shock_breakout);
    ("redback/priors/csm_shock_breakout.prior#2", csm_shock_breakout_wide);
    ("redback/priors/gaussianrise_cooling_envelope.prior",
       gaussianrise_cooling_envelope);
    ("redback/priors/stream_stream_tde.prior", stream_stream_tde);
    ("redback/priors/non_default_priors/fitted_exp_decay.prior",
       fitted_exp_decay) ].

(** All entries of all shipped files, each with the file it stands in. *)
Definition entries : list (string * assignment) :=
  flat_map (fun f => map (fun a => (fst f, a)) (snd f)) shipped.

(** ** What an entry is *)

Definition families : list string := ["Uniform"; "LogUniform"; "Sine"].

Definition is_family (c : call) : bool :=
  existsb (String.eqb (callee c)) families.

Definition is_number (a : option pyarg) : bool :=
  match a with Some (Val _) => true | _ => false end.

Definition is_string (a : option pyarg) : bool :=
  match a with Some (Str _) => true | _ => false end.

(** A call carries its bounds when the maximum is written out and the
    minimum is written out too; [Sine(name=.., maximum=.., ..)] leaves its
    minimum to the default of the class. *)
Definition carries_bounds (c : call) : bool :=
  is_number (maximum c)
  && (is_number (minimum c) || String.eqb (callee c) "Sine").

Definition carries_label (c : call) : bool := is_string (latex_label c).

(** A distribution specification with bounds and a latex label. *)
Definition bounded_labelled_distribution (v : rhs) : bool :=
  match v with
  | Dist c => is_family c && carries_bounds c && carries_label c
  | Literal _ => false
  end.

(** A parameter fixed to a number, as in [c1 = 1.0]. *)
Definition fixed_constant (v : rhs) : bool :=
  match v with
  | Literal (Num _) => true
  | _ => false
  end.

(** The key of an assignment against the name its distribution records. *)
Definition name_matches_key (a : assignment) : bool :=
  match snd a with
  | Dist c =>
      match name c with
      | Some (Str n) => String.eqb n (fst a)
      | _ => false
      end
  | Literal _ => true
  end.

Definition recorded_name (v : rhs) : option string :=
  match v with
  | Dist c => match name c with Some (Str n) => Some n | _ => None end
  | Literal _ => None
  end.

(** The entries whose key differs from the recorded name:
    file, key, recorded name. *)
Definition name_mismatches : list (string * string * option string) :=
  map (fun e => (fst e, fst (snd e), recorded_name (snd (snd e))))
      (List.filter (fun e => negb (name_matches_key (snd e))) entries).

(** ** Bounds as real numbers *)

Section Bounds.

(** The minimum that bilby's [Sine] takes when none is given: the class
    is not part of the repository, its default is a parameter here. *)
Variable sine_minimum : R.

Definition number (a : option pyarg) : option R :=
  match a with Some (Val e) => Some (eval e) | _ => None end.

Definition lower (c : call) : option R :=
  match minimum c with
  | Some a => number (Some a)
  | None => if String.eqb (callee c) "Sine" then Some sine_minimum else None
  end.

Definition upper (c : call) : option R := number (maximum c).

(** minimum < maximum, and a [LogUniform] starts above zero. *)
Definition well_bounded (c : call) : Prop :=
  exists lo hi : R,
    lower c = Some lo /\ upper c = Some hi /\ (lo < hi)%R
    /\ (callee c = "LogUniform" -> (0 < lo)%R).

Definition entry_well_bounded (a : assignment) : Prop :=
  match snd a with
  | Dist c => well_bounded c
  | Literal _ => True
  end.

End Bounds.

(** ** Parsing a file into a prior *)

(** Modelled from the spec: the reader of the prior files
    ([redback.priors.get_priors], which hands the file to bilby's
    [PriorDict.from_file]) is not in the sources. The specification says
    that prior files are "parsed into distribution objects" and that prior
    objects "map parameter names to distribution specifications": the file
    is read top to bottom and each assignment stores its value under its
    key in the map. *)
Definition parse_prior (f : prior_file) : gmap string rhs :=
  foldl (fun m a => <[fst a := snd a]> m) ∅ f.

(** The value of the last assignment to [k] in the file, as the claim
    words it. *)
Definition last_assignment (k : string) (f : prior_file) : option rhs :=
  snd <$> last (filter (fun a => fst a = k) f).

(** The keys a file assigns. *)
Definition assigned (f : prior_file) : list string := map fst f.

End Prior.

(** ** numpy arrays with boolean masks *)

Module Numpy.

(** [np.zeros(n)] *)
Definition zeros (n : nat) : list R := replicate n 0%R.

(** [~mask] *)
Definition invert (mask : list bool) : list bool := map negb mask.

(** Number of [True] in a mask. *)
Definition count_true (mask : list bool) : nat :=
  length (List.filter (fun b : bool => b) mask).

(** The elements of [a] at the positions where [mask] is [True]. *)
Fixpoint pick {A : Type} (mask : list bool) (a : list A) : list A :=
  match mask, a with
  | true :: m, v :: a' => v :: pick m a'
  | false :: m, _ :: a' => pick m a'
  | _, _ => []
  end.

(** [a[mask]]: an [IndexError] when the mask has another length. *)
Definition getitem {A : Type} (a : list A) (mask : list bool)
  : option (list A) :=
  if decide (length mask = length a) then Some (pick mask a) else None.

(** Writes [vals], in order, to the positions where [mask] is [True]. *)
Fixpoint put {A : Type} (a : list A) (mask : list bool) (vals : list A)
  : list A :=
  match a, mask with
  | v :: a', true :: m =>
      match vals with
      | w :: ws => w :: put a' m ws
      | [] => v :: put a' m []
      end
  | v :: a', false :: m => v :: put a' m vals
  | _, _ => a
  end.

(** [a[mask] = vals]: an [IndexError] when the mask has another length, a
    [ValueError] when [vals] has neither one value per selected position
    nor a single value to repeat. *)
Definition setitem {A : Type} (a : list A) (mask : list bool) (vals : list A)
  : option (list A) :=
  if decide (length mask = length a) then
    if decide (length vals = count_true mask) then Some (put a mask vals)
    else
      match vals with
      | [w] => Some (put a mask (replicate (count_true mask) w))
      | _ => None
      end
  else None.

End Numpy.

(** ** examples/handling_non_detections.ipynb: the arrays handed to the
    likelihood *)

Module Notebook.

(** One row of [sn_sim.observations]; the columns the notebook reads. *)
Record observation : Type := Observation {
  time_days : R;        (* 'time (days)' *)
  flux_obs : R;         (* 'flux(erg/cm2/s)' *)
  flux_error : R;       (* 'flux_error' *)
  band : string;        (* 'band' *)
  flux_limit : R;       (* 'flux_limit' *)
  detected : Z          (* 'detected': 0 for non-detections, 1 for detections *)
}.

Section Cells.

(** [data = sn_sim.observations] *)
Variable data : list observation.

Definition time : list R := map time_days data.
Definition flux : list R := map flux_obs data.
Definition flux_err : list R := map flux_error data.
Definition bands : list string := map band data.
Definition limits : list R := map flux_limit data.
Definition detections : list Z := map detected data.

(** [detected_mask = detections == 1.0] *)
Definition detected_mask : list bool :=
  map (fun d => Z.eqb d 1) detections.

(** [x = time] *)
Definition x : list R := time.

(** [y = np.zeros(len(time))]
    [y[detected_mask] = flux[detected_mask]]
    [y[~detected_mask] = limits[~detected_mask]] *)
Definition y : option (list R) :=
  let y0 := Numpy.zeros (length time) in
  seen ← Numpy.getitem flux detected_mask;
  y1 ← Numpy.setitem y0 detected_mask seen;
  unseen ← Numpy.getitem limits (Numpy.invert detected_mask);
  Numpy.setitem y1 (Numpy.invert detected_mask) unseen.

(** [y_err = flux_err] *)
Definition y_err : list R := flux_err.

(** [upper_limit_sigma=5.] *)
Definition upper_limit_sigma : R := 5%R.

(** The arrays of the transient built from the detections only:
    [Supernova(time=time[detected_mask], flux=flux[detected_mask],
               flux_err=flux_err[detected_mask], bands=bands[detected_mask])] *)
Definition supernova_arrays
  : option (list R * list R * list R * list string) :=
  t ← Numpy.getitem time detected_mask;
  f ← Numpy.getitem flux detected_mask;
  e ← Numpy.getitem flux_err detected_mask;
  b ← Numpy.getitem bands detected_mask;
  Some (t, f, e, b).

End Cells.

End Notebook.

(** ** The Gaussian likelihood with upper limits *)

Module Likelihood.

Section GaussianLikelihoodWithUpperLimits.

(** The cumulative distribution function of the standard normal law
    (scipy's), and the model function with its keyword arguments applied:
    time array and parameters to predicted values. *)
Variable norm_cdf : R -> R.
Variable function : list R -> gmap string R -> list R.

(** The Gaussian density of an observation [y] around the prediction
    [mu] with standard deviation [sigma]: a term in [(y - mu) / sigma]. *)
Definition gaussian_density (y mu sigma : R) : R :=
  (exp (- (((y - mu) / sigma) * ((y - mu) / sigma)) / 2)
   / (sigma * sqrt (2 * PI)))%R.

(** The probability that a source predicted at [mu] stays below [limit],
    when [limit] is an [upper_limit_sigma]-sigma threshold: "the 'sigma'
    of the upper limit is limit / 3 [for a 3-sigma limit], and the
    likelihood is the CDF at obs_upperlimit - model / upper_limit_sigma". *)
Definition upper_limit_probability (limit mu upper_limit_sigma : R) : R :=
  norm_cdf ((limit - mu) / (limit / upper_limit_sigma))%R.

(** Modelled from the spec: [redback.likelihoods.
    GaussianLikelihoodWithUpperLimits] is not in the sources; the notebook
    only constructs it. Following the specification ("a single closed-form
    probability computation (Gaussian CDF evaluated at an offset
    determined by a detection flag)") and the notebook ("the likelihood is
    Gaussian", and for limits the CDF above): a point flagged as a
    detection contributes its Gaussian density, any other point the
    probability of staying below its limit. *)
Definition contribution (upper_limit_sigma : R) (d : Z) (y mu sigma : R)
  : R :=
  if Z.eqb d 1 then gaussian_density y mu sigma
  else upper_limit_probability y mu upper_limit_sigma.

(** The attributes given to the constructor. *)
Record t : Type := Make {
  x : list R;
  y : list R;
  sigma : list R;
  detections : list Z;
  upper_limit_sigma : R
}.

Definition model_prediction (L : t) (parameters : gmap string R) : list R :=
  function (x L) parameters.

(** The contribution of the data point at index [i]. *)
Definition point (L : t) (parameters : gmap string R) (i : nat) : R :=
  contribution (upper_limit_sigma L)
    (nth i (detections L) 0%Z)
    (nth i (y L) 0%R)
    (nth i (model_prediction L parameters) 0%R)
    (nth i (sigma L) 0%R).

(** Modelled from the spec: the log-likelihood is the sum of the logs of
    the contributions of the data points, one pass over the data. *)
Definition log_likelihood (L : t) (parameters : gmap string R) : R :=
  fold_right Rplus 0%R
    (map (fun i => ln (point L parameters i)) (seq 0 (length (x L)))).

End GaussianLikelihoodWithUpperLimits.

(** The notebook's
    [GaussianLikelihoodWithUpperLimits(x=x, y=y, sigma=y_err,
       function=function, detections=detections, kwargs=kwargs,
       upper_limit_sigma=5.)]. *)
Definition of_notebook (data : list Notebook.observation) : option t :=
  ys ← Notebook.y data;
  Some (Make (Notebook.x data) ys (Notebook.y_err data)
             (Notebook.detections data) Notebook.upper_limit_sigma).

End Likelihood.

(** ** examples/handling_non_detections.ipynb: the other cells *)

Module Session.

Import Notebook.

(** A value kept in one of the notebook's dictionaries. *)
Inductive pyvalue : Type :=
  | Number (q : Q)
  | Text (s : string).

(** [d[key]] on a dictionary written as a literal: a [KeyError] when the
    key is absent. *)
Fixpoint item {V : Type} (key : string) (d : list (string * V)) : option V :=
  match d with
  | [] => None
  | (k, v) :: rest => if String.eqb k key then Some v else item key rest
  end.

(** [d.keys()] *)
Definition keys {V : Type} (d : list (string * V)) : list string :=
  map fst d.

(** [band_colors = {'lsstg':'#4daf4a', 'lsstu':'#377eb8', 'lsstr':'#e41a1c',
                    'lsstz':'#a65628', 'lssti':'#ff7f00', 'lssty':'#984ea3'}] *)
Definition band_colors : list (string * string) :=
  [ ("lsstg", "#4daf4a"); ("lsstu", "#377eb8"); ("lsstr", "#e41a1c");
    ("lsstz", "#a65628"); ("lssti", "#ff7f00"); ("lssty", "#984ea3") ].

(** [upper_limits = sn_sim.observations[sn_sim.observations['detected'] != 1.0]] *)
Definition upper_limits (data : list observation) : list observation :=
  List.filter (fun r => negb (Z.eqb (detected r) 1)) data.

(** One [ax.scatter(xs, ys, s=100, marker=r'$\downarrow$', color=color)]. *)
Record scatter : Type := Scatter {
  xs : list R;
  ys : list R;
  color : string
}.

(** [up = upper_limits[upper_limits['band'] == band]] *)
Definition in_band (band_name : string) (rows : list observation)
  : list observation :=
  List.filter (fun r => String.eqb (band r) band_name) rows.

(** [for band in band_colors.keys():]
    [    up = upper_limits[upper_limits['band'] == band]]
    [    ax.scatter(up['time (days)'], up['flux_limit'], s=100,]
    [               marker=r'$\downarrow$', color=band_colors[band])] *)
Definition plot_non_detections (colors : list (string * string))
    (data : list observation) : option (list scatter) :=
  mapM (fun band_name =>
          let up := in_band band_name (upper_limits data) in
          c ← item band_name colors;
          Some (Scatter (map time_days up) (map flux_limit up) c))
       (keys colors).

(** The cell that prepares [parameters], from the sample drawn from the
    priors of the model:
    [parameters = redback.priors.get_priors(model='arnett').sample()]
    [parameters['mej'] = 10] ... [parameters['dec'] = -0.8] *)
Definition set_parameters (sample : gmap string pyvalue)
  : option (gmap string pyvalue) :=
  let p := <["mej" := Number 10]> sample in
  let p := <["t0_mjd_transient" := Number 60500]> p in
  let p := <["redshift" := Number 0.32]> p in
  t0 ← p !! "t0_mjd_transient";
  let p := <["t0" := t0]> p in
  let p := <["temperature_floor" := Number 1000]> p in
  let p := <["kappa" := Number 0.34]> p in
  let p := <["vej" := Number 2500]> p in
  let p := <["kappa_gamma" := Number 1e-2]> p in
  let p := <["f_nickel" := Number 0.05]> p in
  let p := <["ra" := Number 1.2]> p in
  let p := <["dec" := Number (-0.8)]> p in
  Some p.

(** [parameters['output_format'] = 'flux']
    [for band in band_colors.keys():]
    [    parameters['bands'] = band]
    [    out = redback.transient_models.supernova_models.arnett(tt, **parameters)]
    The dictionary is shared by the iterations; the result is the
    dictionary left behind and the keyword arguments of each call. *)
Definition plot_true_model (colors : list (string * string))
    (parameters : gmap string pyvalue)
  : gmap string pyvalue * list (gmap string pyvalue) :=
  foldl (fun st band_name =>
           let p := <["bands" := Text band_name]> (fst st) in
           (p, snd st ++ [p]))
        (<["output_format" := Text "flux"]> parameters, [])
        (keys colors).

(** What a statement of these cells can raise. *)
Inductive exception : Type :=
  | KeyError (key : string)   (* [d[key]] with [key] absent *)
  | SetterError.              (* [obj.maximum = v] refused by the object *)

(** Statements run in sequence: the value they give, or the exception
    that stopped them. *)
Inductive raised (A : Type) : Type :=
  | Returned (a : A)
  | Raised (e : exception).

Arguments Returned {A} a.
Arguments Raised {A} e.

#[global] Instance raised_ret : MRet raised := fun A a => Returned a.

#[global] Instance raised_bind : MBind raised :=
  fun A B f m =>
    match m with
    | Returned a => f a
    | Raised e => Raised e
    end.

(** [d[key]] on a dictionary: a [KeyError] when the key is absent. *)
Definition getitem {V : Type} (d : gmap string V) (key : string) : raised V :=
  match d !! key with
  | Some v => Returned v
  | None => Raised (KeyError key)
  end.

(** [for key in ks: injection_parameters[key] = parameters[key]]
    The dictionary [inj] exists before the loop and is filled in place:
    when [parameters[key]] raises, what was stored so far stays in it. The
    result is the dictionary after the loop and the exception, if any. *)
Fixpoint copy_keys (ks : list string) (parameters inj : gmap string pyvalue)
  : gmap string pyvalue * option exception :=
  match ks with
  | [] => (inj, None)
  | key :: rest =>
      match parameters !! key with
      | Some v => copy_keys rest parameters (<[key := v]> inj)
      | None => (inj, Some (KeyError key))
      end
  end.

Section Fit.

(** The prior objects are bilby's: what is stored under a key, how a plain
    value is stored and how [obj.maximum = v] acts are parameters. *)
Variable prior : Type.
Variable plain : pyvalue -> prior.
Variable set_maximum : Q -> prior -> option prior.

(** [priors = redback.priors.get_priors('arnett')]
    [priors['redshift'] = parameters['redshift']]
    [priors['kappa'] = parameters['kappa']]
    [priors['kappa_gamma'] = parameters['kappa_gamma']]
    [priors['vej'].maximum = 8000] *)
Definition fix_priors (priors : gmap string prior)
    (parameters : gmap string pyvalue) : raised (gmap string prior) :=
  z ← getitem parameters "redshift";
  let priors := <["redshift" := plain z]> priors in
  k ← getitem parameters "kappa";
  let priors := <["kappa" := plain k]> priors in
  g ← getitem parameters "kappa_gamma";
  let priors := <["kappa_gamma" := plain g]> priors in
  v ← getitem priors "vej";
  match set_maximum 8000 v with
  | Some v' => Returned (<["vej" := v']> priors)
  | None => Raised SetterError
  end.

(** [injection_parameters = {}]
    [for key in priors:]
    [    injection_parameters[key] = parameters[key]] *)
Definition injection_parameters (priors : gmap string prior)
    (parameters : gmap string pyvalue)
  : gmap string pyvalue * option exception :=
  copy_keys (map fst (map_to_list priors)) parameters ∅.

(** The whole cell: an exception while the priors are fixed stops it
    before [injection_parameters] exists. *)
Definition fit_cell (priors : gmap string prior)
    (parameters : gmap string pyvalue)
  : raised (gmap string pyvalue * option exception) :=
  fixed ← fix_priors priors parameters;
  Returned (injection_parameters fixed parameters).

End Fit.

End Session.

(** * Properties *)

(** ** The shipped prior files *)

Section PriorFiles.

Import Prior.

Local Open Scope R_scope.

Lemma by_position_well_bounded d0 k cls lo hi nm label :
  (lo < hi)%Q ->
  (cls = "LogUniform" -> (0 < lo)%Q) ->
  entry_well_bounded d0 (k, by_position cls lo hi nm label).
Proof.
  intros Hlt Hpos. exists (Q2R lo), (Q2R hi).
  repeat split; try reflexivity.
  - now apply Qlt_Rlt.
  - intros Hcls. rewrite <- RMicromega.Q2R_0. apply Qlt_Rlt. now apply Hpos.
Qed.

Lemma by_keyword_well_bounded d0 k cls lo hi nm label :
  (lo < hi)%Q ->
  (cls = "LogUniform" -> (0 < lo)%Q) ->
  entry_well_bounded d0 (k, by_keyword cls lo hi nm label).
Proof.
  intros Hlt Hpos. exists (Q2R lo), (Q2R hi).
  repeat split; try reflexivity.
  - now apply Qlt_Rlt.
  - intros Hcls. rewrite <- RMicromega.Q2R_0. apply Qlt_Rlt. now apply Hpos.
Qed.

Lemma sine_well_bounded d0 k nm label :
  d0 < PI / 2 ->
  entry_well_bounded d0
    (k, Dist (Call "Sine" []
                [("name", Str nm); ("maximum", Val (Div NpPi (Num 2)));
                 ("latex_label", Str label)])).
Proof.
  intros Hd0. exists d0, (PI / Q2R 2).
  repeat split; try reflexivity.
  - replace (Q2R 2) with 2 by (unfold Q2R; simpl; lra). exact Hd0.
  - intros Hcls. discriminate Hcls.
Qed.

Ltac bounded_entry :=
  first
    [ exact I
    | apply by_position_well_bounded;
      [ reflexivity | intros Hcls; first [ reflexivity | discriminate Hcls ] ]
    | apply by_keyword_well_bounded;
      [ reflexivity | intros Hcls; first [ reflexivity | discriminate Hcls ] ]
    | apply sine_well_bounded; assumption ].

(** C9. In every shipped prior file, every distribution has its minimum
    strictly below its maximum and every LogUniform has a strictly
    positive minimum. The one [Sine] gives only its maximum, [np.pi/2];
    its minimum is the default of bilby's class, and the statement holds
    for any default below [np.pi/2] (bilby's is 0). *)
Theorem shipped_bounds_ordered (sine_minimum : R) :
  sine_minimum < PI / 2 ->
  Forall (fun e => entry_well_bounded sine_minimum (snd e)) entries.
Proof.
  intros Hd0. unfold entries, shipped. cbn [flat_map map app fst snd].
  unfold csm_shock_breakout, csm_shock_breakout_wide,
    gaussianrise_cooling_envelope, stream_stream_tde, fitted_exp_decay.
  cbn [flat_map map app fst snd].
  repeat (apply Forall_cons; split; [ bounded_entry | ]).
  apply Forall_nil. exact I.
Qed.

Lemma shipped_bounds_ordered_witness :
  0 < PI / 2
  /\ Forall (fun e => entry_well_bounded 0 (snd e)) entries.
Proof.
  assert (H : 0 < PI / 2) by (pose proof PI_RGT_0; lra).
  split; [ exact H | exact (shipped_bounds_ordered 0 H) ].
Defined.

(** C3, as stated, fails: [c1 = 1.0] in stream_stream_tde.prior maps a
    parameter name to a bare number, not to a distribution. *)
Lemma constant_entry_is_no_distribution :
  In ("redback/priors/stream_stream_tde.prior", ("c1", Literal (Num 1.0)))
     entries
  /\ bounded_labelled_distribution (Literal (Num 1.0)) = false
  /\ ~ Forall (fun e => bounded_labelled_distribution (snd (snd e)) = true)
       entries.
Proof.
  assert (Hin : In ("redback/priors/stream_stream_tde.prior",
                    ("c1", Literal (Num 1.0))) entries).
  { unfold entries, shipped. cbn. tauto. }
  repeat split; [ exact Hin | ].
  intros Hall. rewrite Forall_forall in Hall.
  specialize (Hall _ (proj2 (list_elem_of_In _ _) Hin)).
  discriminate Hall.
Qed.

(** C3, amended. Every entry of the shipped prior files maps a parameter
    name either to a distribution specification (Uniform, LogUniform or
    Sine) that carries its bounds and a latex label, or to a fixed
    number. *)
Theorem entries_are_distributions_or_constants :
  Forall (fun e => bounded_labelled_distribution (snd (snd e)) = true
                   \/ fixed_constant (snd (snd e)) = true) entries.
Proof.
  unfold entries, shipped. cbn [flat_map map app fst snd].
  unfold csm_shock_breakout, csm_shock_breakout_wide,
    gaussianrise_cooling_envelope, stream_stream_tde, fitted_exp_decay.
  cbn [flat_map map app fst snd].
  repeat (apply Forall_cons; split;
          [ first [ left; reflexivity | right; reflexivity ] | ]).
  apply Forall_nil. exact I.
Qed.

(** C4. The entries whose key is not the name recorded in their
    distribution are exactly three: [v_min] is recorded as ['vej'] in
    both documents of csm_shock_breakout.prior, and [mstar] as
    ['stellar_mass'] in stream_stream_tde.prior. Every other distribution
    records its own key. *)
Theorem name_mismatches_found :
  name_mismatches =
    [ ("redback/priors/csm_shock_breakout.prior", "v_min", Some "vej");
      ("redback/priors/csm_shock_breakout.prior#2", "v_min", Some "vej");
      ("redback/priors/stream_stream_tde.prior", "mstar",
         Some "stellar_mass") ].
Proof. reflexivity. Qed.

(** ** Parsing: the last assignment wins *)

Lemma parse_prior_snoc (f : prior_file) (a : assignment) :
  parse_prior (f ++ [a]) = <[fst a := snd a]> (parse_prior f).
Proof. unfold parse_prior. now rewrite foldl_app. Qed.

(** What the parsed prior holds under a key is what the last assignment
    to that key gave. *)
Lemma parse_prior_lookup (f : prior_file) (k : string) :
  parse_prior f !! k = last_assignment k f.
Proof.
  induction f as [| a f IH] using rev_ind.
  - reflexivity.
  - rewrite parse_prior_snoc. unfold last_assignment in *.
    rewrite filter_app. destruct (decide (fst a = k)) as [Heq | Hne].
    + rewrite (filter_cons_True _ a []) by exact Heq.
      rewrite filter_nil, last_snoc. cbn. subst k.
      apply lookup_insert_eq.
    + rewrite (filter_cons_False _ a []) by exact Hne.
      rewrite filter_nil, app_nil_r, <- IH.
      now apply lookup_insert_ne.
Qed.

Lemma last_assignment_app_assigned (f g : prior_file) (k : string) :
  k ∈ assigned g -> last_assignment k (f ++ g) = last_assignment k g.
Proof.
  unfold last_assignment, assigned. intros Hk.
  apply list_elem_of_fmap in Hk as [a [-> Ha]].
  rewrite filter_app.
  assert (Hne : filter (fun b : assignment => fst b = fst a) g <> []).
  { intros Hnil.
    assert (Hin : a ∈ filter (fun b : assignment => fst b = fst a) g)
      by (apply list_elem_of_filter; split; [ reflexivity | exact Ha ]).
    rewrite Hnil in Hin. inversion Hin. }
  destruct (filter (fun b : assignment => fst b = fst a) g) as [| b l] eqn:E
    using rev_ind; [ congruence | ].
  now rewrite app_assoc, !last_snoc.
Qed.

Lemma last_assignment_final (f g : prior_file) (k : string) (v : rhs) :
  k ∉ assigned g -> last_assignment k (f ++ (k, v) :: g) = Some v.
Proof.
  unfold last_assignment, assigned. intros Hk.
  rewrite filter_app, filter_cons_True by reflexivity.
  assert (Hnone : filter (fun b : assignment => fst b = k) g = []).
  { induction g as [| b g IH]; [ reflexivity | ].
    rewrite filter_cons_False.
    - apply IH. intros Hin. apply Hk. cbn. now right.
    - intros Hb. apply Hk. cbn. rewrite Hb. now left. }
  rewrite Hnone.
  now rewrite last_snoc.
Qed.

(** C6. When a key is assigned again further down the file, the parsed
    prior binds it to the value of the last assignment, and the earlier
    assignment leaves no trace: the prior is the one parsed from the file
    without it. *)
Theorem last_assignment_wins (f1 f2 f3 : prior_file) (k : string)
    (v v' : rhs) :
  k ∉ assigned f3 ->
  parse_prior (f1 ++ (k, v) :: f2 ++ (k, v') :: f3) !! k = Some v'
  /\ parse_prior (f1 ++ (k, v) :: f2 ++ (k, v') :: f3)
     = parse_prior (f1 ++ f2 ++ (k, v') :: f3).
Proof.
  intros Hk. split.
  - rewrite parse_prior_lookup.
    replace (f1 ++ (k, v) :: f2 ++ (k, v') :: f3)
      with ((f1 ++ (k, v) :: f2) ++ (k, v') :: f3)
      by now rewrite <- app_assoc.
    now apply last_assignment_final.
  - apply map_eq. intros j. rewrite !parse_prior_lookup.
    destruct (decide (j = k)) as [-> | Hne].
    + replace (f1 ++ (k, v) :: f2 ++ (k, v') :: f3)
        with ((f1 ++ (k, v) :: f2) ++ (k, v') :: f3)
        by now rewrite <- app_assoc.
      rewrite app_assoc.
      now rewrite !last_assignment_final.
    + unfold last_assignment.
      rewrite (filter_app _ f1), filter_cons_False by (cbn; congruence).
      now rewrite (filter_app _ f1).
Qed.

Lemma last_assignment_wins_witness :
  parse_prior gaussianrise_cooling_envelope !! "beta"
    = Some (Literal (Num 0.9))
  /\ parse_prior gaussianrise_cooling_envelope
     = parse_prior
         (firstn 7 gaussianrise_cooling_envelope
          ++ skipn 8 gaussianrise_cooling_envelope).
Proof.
  apply (last_assignment_wins (firstn 7 gaussianrise_cooling_envelope) []
           (skipn 9 gaussianrise_cooling_envelope) "beta"
           (by_keyword "Uniform" 1 5 "beta" "$\\beta$")
           (Literal (Num 0.9))).
  apply (bool_decide_unpack _). vm_compute. exact I.
Defined.

End PriorFiles.

(** ** The arrays of the notebook *)

Section Masks.

Context {A : Type}.

Lemma length_pick_map {B : Type} (m : B -> bool) (g : B -> A) (l : list B) :
  length (Numpy.pick (map m l) (map g l)) = Numpy.count_true (map m l).
Proof.
  unfold Numpy.count_true.
  induction l as [| b l IH]; [ reflexivity | ].
  cbn. destruct (m b); cbn; now rewrite IH.
Qed.

Lemma length_put (a : list A) (mask : list bool) (vals : list A) :
  length (Numpy.put a mask vals) = length a.
Proof.
  revert mask vals.
  induction a as [| v a IH]; intros [| [] mask] vals; try reflexivity.
  - destruct vals; cbn; now rewrite IH.
  - cbn. now rewrite IH.
Qed.

(** Filling the detected positions from one column and the others from a
    second column gives, row by row, the value of the column that the
    row's flag selects. *)
Lemma put_pick_both {B : Type} (m : B -> bool) (g h : B -> A) (z : A)
    (l : list B) :
  Numpy.put
    (Numpy.put (replicate (length l) z) (map m l)
               (Numpy.pick (map m l) (map g l)))
    (Numpy.invert (map m l))
    (Numpy.pick (Numpy.invert (map m l)) (map h l))
  = map (fun b => if m b then g b else h b) l.
Proof.
  unfold Numpy.invert.
  induction l as [| b l IH]; [ reflexivity | ].
  cbn. destruct (m b); cbn; now rewrite IH.
Qed.

Lemma getitem_map {B : Type} (m : B -> bool) (g : B -> A) (l : list B) :
  Numpy.getitem (map g l) (map m l) = Some (Numpy.pick (map m l) (map g l)).
Proof.
  unfold Numpy.getitem. rewrite !length_map.
  now destruct (decide (length l = length l)).
Qed.

Lemma setitem_exact (a : list A) (mask : list bool) (vals : list A) :
  length mask = length a ->
  length vals = Numpy.count_true mask ->
  Numpy.setitem a mask vals = Some (Numpy.put a mask vals).
Proof.
  intros Hmask Hvals. unfold Numpy.setitem.
  destruct (decide (length mask = length a)); [ | contradiction ].
  now destruct (decide (length vals = Numpy.count_true mask)).
Qed.

Lemma invert_map {B : Type} (m : B -> bool) (l : list B) :
  Numpy.invert (map m l) = map (fun b => negb (m b)) l.
Proof. unfold Numpy.invert. apply map_map. Qed.

End Masks.

Section NotebookArrays.

Import Notebook.

(** The value the notebook stores in [y] for one row: the flux of a
    detection, the limiting flux otherwise. *)
Lemma y_closed_form (data : list observation) :
  y data
  = Some (map (fun r => if Z.eqb (detected r) 1 then flux_obs r
                        else flux_limit r) data).
Proof.
  set (m := fun r : observation => Z.eqb (detected r) 1).
  assert (Hmask : detected_mask data = map m data)
    by (unfold detected_mask, detections; apply map_map).
  unfold y. rewrite Hmask. unfold flux, limits, time.
  rewrite getitem_map. cbn [mbind option_bind].
  rewrite setitem_exact;
    [ | unfold Numpy.zeros; now rewrite length_replicate, !length_map
      | apply length_pick_map ].
  cbn [mbind option_bind].
  rewrite invert_map, getitem_map. cbn [mbind option_bind].
  rewrite setitem_exact;
    [ | rewrite length_put; unfold Numpy.zeros;
        now rewrite length_replicate, !length_map
      | apply length_pick_map ].
  f_equal. rewrite <- invert_map. unfold Numpy.zeros.
  rewrite length_map.
  apply (put_pick_both m flux_obs flux_limit).
Qed.

(** The transient that the notebook builds from the detections receives
    four arrays of one length: the number of detected rows. *)
Lemma supernova_arrays_equal_length (data : list observation) :
  exists (t f e : list R) (b : list string),
    supernova_arrays data = Some (t, f, e, b)
    /\ length t = Numpy.count_true (detected_mask data)
    /\ length f = length t /\ length e = length t /\ length b = length t.
Proof.
  set (m := fun r : observation => Z.eqb (detected r) 1).
  assert (Hmask : detected_mask data = map m data)
    by (unfold detected_mask, detections; apply map_map).
  unfold supernova_arrays. rewrite Hmask.
  unfold time, flux, flux_err, bands.
  rewrite !getitem_map. cbn [mbind option_bind].
  do 4 eexists. split; [ reflexivity | ].
  now rewrite !length_pick_map.
Qed.

End NotebookArrays.

(** ** The likelihood with upper limits *)

Section UpperLimits.

Import Notebook.

Variable norm_cdf : R -> R.
Variable function : list R -> gmap string R -> list R.

Lemma nth_map_middle {B C : Type} (f : B -> C) (pre post : list B) (r : B)
    (d : C) :
  nth (length pre) (map f (pre ++ r :: post)) d = f r.
Proof.
  rewrite map_app. cbn [map].
  rewrite <- (length_map f pre). apply nth_middle.
Qed.

(** C1. For the likelihood the notebook builds from a table of
    observations, the contribution of each row is one closed-form
    probability chosen by the row's detection flag. With flag 1 it is the
    Gaussian density exp(-z^2/2) / (flux_error sqrt(2 pi)) at
    z = (flux - model(x)) / flux_error; with flag 0 it is the normal CDF at
    (limit - model(x)) / (limit / upper_limit_sigma), where
    upper_limit_sigma is 5 and model(x) is the value of the model function,
    applied to the time column, at the row. Building the likelihood never
    fails, and the log-likelihood is the one sum of the logarithms of these
    contributions. *)
Theorem contribution_selected_by_flag (pre post : list observation)
    (r : observation) (parameters : gmap string R) :
  exists L : Likelihood.t,
    Likelihood.of_notebook (pre ++ r :: post) = Some L
    /\ (detected r = 1%Z ->
        Likelihood.point norm_cdf function L parameters (length pre)
        = (exp (- (((flux_obs r
                     - nth (length pre)
                           (function (map time_days (pre ++ r :: post))
                                     parameters) 0)
                    / flux_error r)
                   * ((flux_obs r
                       - nth (length pre)
                             (function (map time_days (pre ++ r :: post))
                                       parameters) 0)
                      / flux_error r)) / 2)
           / (flux_error r * sqrt (2 * PI)))%R)
    /\ (detected r = 0%Z ->
        Likelihood.point norm_cdf function L parameters (length pre)
        = norm_cdf
            ((flux_limit r
              - nth (length pre)
                    (function (map time_days (pre ++ r :: post))
                              parameters) 0)
             / (flux_limit r / 5))%R)
    /\ Likelihood.log_likelihood norm_cdf function L parameters
       = fold_right Rplus 0%R
           (map (fun i =>
                   ln (Likelihood.point norm_cdf function L parameters i))
                (seq 0 (length (pre ++ r :: post)))).
Proof.
  unfold Likelihood.of_notebook. rewrite y_closed_form.
  cbn [mbind option_bind]. eexists. split; [ reflexivity | ].
  unfold Likelihood.log_likelihood, Likelihood.point,
    Likelihood.contribution, Likelihood.model_prediction,
    Likelihood.gaussian_density, Likelihood.upper_limit_probability.
  cbn [Likelihood.x Likelihood.y Likelihood.sigma Likelihood.detections
       Likelihood.upper_limit_sigma].
  unfold x, time, y_err, flux_err, detections, upper_limit_sigma.
  rewrite !nth_map_middle.
  split; [ | split ].
  - intros Hflag. rewrite Hflag. reflexivity.
  - intros Hflag. rewrite Hflag. reflexivity.
  - now rewrite length_map.
Qed.

(** The whole log-likelihood is one sum over the data points. *)
Lemma log_likelihood_is_sum (L : Likelihood.t) (parameters : gmap string R) :
  Likelihood.log_likelihood norm_cdf function L parameters
  = fold_right Rplus 0%R
      (map (fun i => ln (Likelihood.point norm_cdf function L parameters i))
           (seq 0 (length (Likelihood.x L)))).
Proof. reflexivity. Qed.

End UpperLimits.

Lemma contribution_selected_by_flag_witness :
  (exists L : Likelihood.t,
     Likelihood.of_notebook
       [Notebook.Observation 1 10 2 "lsstg" 3 1;
        Notebook.Observation 4 0 2 "lsstu" 5 0] = Some L
     /\ Likelihood.point (fun z => / (1 + exp (- z)))%R (fun t _ => t) L ∅ 0
        = (exp (- (((10 - 1) / 2) * ((10 - 1) / 2)) / 2)
           / (2 * sqrt (2 * PI)))%R)
  /\ (exists L : Likelihood.t,
        Likelihood.of_notebook
          [Notebook.Observation 1 10 2 "lsstg" 3 1;
           Notebook.Observation 4 0 2 "lsstu" 5 0] = Some L
        /\ Likelihood.point (fun z => / (1 + exp (- z)))%R (fun t _ => t) L ∅ 1
           = (/ (1 + exp (- ((5 - 4) / (5 / 5)))))%R).
Proof.
  split.
  - destruct (contribution_selected_by_flag
                (fun z => / (1 + exp (- z)))%R (fun t _ => t)
                [] [Notebook.Observation 4 0 2 "lsstu" 5 0]
                (Notebook.Observation 1 10 2 "lsstg" 3 1) ∅)
      as [L [HL [Hseen _]]].
    exists L. split; [ exact HL | exact (Hseen eq_refl) ].
  - destruct (contribution_selected_by_flag
                (fun z => / (1 + exp (- z)))%R (fun t _ => t)
                [Notebook.Observation 1 10 2 "lsstg" 3 1] []
                (Notebook.Observation 4 0 2 "lsstu" 5 0) ∅)
      as [L [HL [_ [Hunseen _]]]].
    exists L. split; [ exact HL | exact (Hunseen eq_refl) ].
Defined.

(** ** The notebook: detections, upper limits and what is drawn *)

Section Rows.

Import Notebook Session.

Lemma pick_map_filter {A B : Type} (m : B -> bool) (g : B -> A) (l : list B) :
  Numpy.pick (map m l) (map g l) = map g (List.filter m l).
Proof.
  induction l as [| b l IH]; [ reflexivity | ].
  cbn. destruct (m b); cbn; now rewrite IH.
Qed.

Lemma map_filter_agree {A B : Type} (m : B -> bool) (f g : B -> A)
    (l : list B) :
  (forall b, m b = true -> f b = g b) ->
  map f (List.filter m l) = map g (List.filter m l).
Proof.
  intros Hfg. induction l as [| b l IH]; [ reflexivity | ].
  cbn. destruct (m b) eqn:Hb; [ | exact IH ].
  cbn. now rewrite IH, (Hfg b Hb).
Qed.

Lemma length_filter_split {B : Type} (m : B -> bool) (l : list B) :
  length (List.filter m l) + length (List.filter (fun b => negb (m b)) l)
  = length l.
Proof.
  induction l as [| b l IH]; [ reflexivity | ].
  cbn. destruct (m b); cbn; lia.
Qed.

Lemma detected_mask_rows (data : list observation) :
  detected_mask data = map (fun r => Z.eqb (detected r) 1) data.
Proof. unfold detected_mask, detections. apply map_map. Qed.

(** X1. The four arrays that the notebook hands to the likelihood ([x],
    [y], [sigma] and [detections]) have one length, the number of rows of
    the table, whatever the flags are; building [y] raises no error. *)
Theorem likelihood_inputs_aligned (data : list observation) :
  exists ys : list R,
    y data = Some ys
    /\ length ys = length data
    /\ length (x data) = length data
    /\ length (y_err data) = length data
    /\ length (detections data) = length data.
Proof.
  eexists. split; [ apply y_closed_form | ].
  unfold x, time, y_err, flux_err, detections.
  now rewrite !length_map.
Qed.

(** X2. Reading [y] back under the masks returns what was written: under
    [detected_mask] the fluxes of the detections, under [~detected_mask]
    the limits of the non-detections. The second assignment does not
    disturb the first. *)
Theorem y_read_back (data : list observation) :
  exists ys : list R,
    y data = Some ys
    /\ Numpy.getitem ys (detected_mask data)
       = Numpy.getitem (flux data) (detected_mask data)
    /\ Numpy.getitem ys (Numpy.invert (detected_mask data))
       = Numpy.getitem (limits data) (Numpy.invert (detected_mask data)).
Proof.
  eexists. split; [ apply y_closed_form | ].
  rewrite detected_mask_rows, invert_map.
  unfold flux, limits. rewrite !getitem_map, !pick_map_filter.
  split; f_equal; apply map_filter_agree; intros r Hr.
  - now rewrite Hr.
  - now destruct (Z.eqb (detected r) 1).
Qed.

(** X3. The transient built from the detections holds exactly the rows
    flagged 1, in the order of the table, column by column. *)
Theorem supernova_holds_detected_rows (data : list observation) :
  supernova_arrays data
  = Some (map time_days (List.filter (fun r => Z.eqb (detected r) 1) data),
          map flux_obs (List.filter (fun r => Z.eqb (detected r) 1) data),
          map flux_error (List.filter (fun r => Z.eqb (detected r) 1) data),
          map band (List.filter (fun r => Z.eqb (detected r) 1) data)).
Proof.
  unfold supernova_arrays. rewrite detected_mask_rows.
  unfold time, flux, flux_err, bands.
  rewrite !getitem_map. cbn [mbind option_bind].
  now rewrite !pick_map_filter.
Qed.

(** X4. The rows of [upper_limits] are the rows that the transient does
    not get: the two selections split the table, no row of [upper_limits]
    is flagged 1, and the limits written into [y] are the [flux_limit]
    column of [upper_limits], the values the notebook draws as arrows. *)
Theorem upper_limits_are_the_rest (data : list observation) :
  length (List.filter (fun r => Z.eqb (detected r) 1) data)
    + length (upper_limits data) = length data
  /\ Forall (fun r => detected r <> 1%Z) (upper_limits data)
  /\ Numpy.getitem (limits data) (Numpy.invert (detected_mask data))
     = Some (map flux_limit (upper_limits data)).
Proof.
  unfold upper_limits. split; [ apply length_filter_split | ]. split.
  - apply List.Forall_forall. intros r Hr.
    apply List.filter_In in Hr as [_ Hr]. intros Hone.
    rewrite Hone in Hr. discriminate Hr.
  - rewrite detected_mask_rows, invert_map. unfold limits.
    now rewrite getitem_map, pick_map_filter.
Qed.

End Rows.

Section Arrows.

Import Notebook Session.

Lemma length_filter_or {B : Type} (p q : B -> bool) (l : list B) :
  (forall b, p b = true -> q b = false) ->
  length (List.filter (fun b => p b || q b) l)
  = length (List.filter p l) + length (List.filter q l).
Proof.
  intros Hpq. induction l as [| b l IH]; [ reflexivity | ].
  cbn. destruct (p b) eqn:Hp; cbn.
  - rewrite (Hpq b Hp). cbn. now rewrite IH.
  - destruct (q b); cbn; rewrite IH; lia.
Qed.

Lemma filter_ext_length {B : Type} (p q : B -> bool) (l : list B) :
  (forall b, p b = q b) ->
  length (List.filter p l) = length (List.filter q l).
Proof. intros Hpq. now rewrite (List.filter_ext p q Hpq). Qed.

(** Over distinct band names, the rows found band by band are as many as
    the rows whose band is one of the names. *)
Lemma rows_band_by_band (names : list string) (rows : list observation) :
  NoDup names ->
  sum_list_with (fun n => length (in_band n rows)) names
  = length (List.filter (fun r => bool_decide (band r ∈ names)) rows).
Proof.
  induction 1 as [| n names Hn Hnames IH].
  - cbn. induction rows as [| r rows IHr]; [ reflexivity | ].
    cbn. rewrite bool_decide_eq_false_2; [ exact IHr | ].
    intros Hin. inversion Hin.
  - cbn [sum_list_with]. rewrite IH. unfold in_band.
    rewrite <- length_filter_or.
    + apply filter_ext_length. intros r.
      destruct (String.eqb_spec (band r) n) as [-> | Hne]; cbn.
      * symmetry. apply bool_decide_eq_true_2. now left.
      * destruct (decide (band r ∈ names)) as [Hin | Hout].
        -- rewrite !bool_decide_eq_true_2; [ reflexivity | | exact Hin ].
           now right.
        -- rewrite !bool_decide_eq_false_2; [ reflexivity | | exact Hout ].
           intros Hin. inversion Hin; subst; contradiction.
    + intros r Hr. apply String.eqb_eq in Hr.
      apply bool_decide_eq_false_2. now rewrite Hr.
Qed.

(** X5. Drawing the non-detections makes one scatter call per colour of
    [band_colors], in the order of the dictionary and with as many
    abscissas as ordinates, and raises no [KeyError]. Together the calls
    draw one arrow for every upper limit whose band has a colour: an upper
    limit in any other band is not drawn. *)
Theorem non_detections_drawn_once (data : list observation) :
  exists calls : list scatter,
    plot_non_detections band_colors data = Some calls
    /\ map color calls = map snd band_colors
    /\ Forall (fun c => length (xs c) = length (ys c)) calls
    /\ sum_list_with (fun c => length (xs c)) calls
       = length (List.filter
                   (fun r => bool_decide (band r ∈ keys band_colors))
                   (upper_limits data)).
Proof.
  eexists. split; [ reflexivity | ].
  split; [ reflexivity | ]. split.
  - repeat (apply Forall_cons; split;
            [ cbn [xs ys]; now rewrite !length_map | ]).
    apply Forall_nil. exact I.
  - rewrite <- rows_band_by_band.
    + cbn [map keys band_colors fst xs sum_list_with].
      now rewrite !length_map.
    + cbn. repeat (apply NoDup_cons; split;
                   [ apply (bool_decide_unpack _); vm_compute; exact I | ]).
      apply NoDup_nil. exact I.
Qed.

(** X6. In the loop that draws the true model the dictionary [parameters]
    is shared by the iterations, yet each call receives the original
    parameters with [output_format='flux'] and its own band only; after the
    loop [parameters] keeps [output_format] and the band of the last
    colour (no band when there is no colour). *)
Theorem plot_true_model_calls (colors : list (string * string))
    (parameters : gmap string pyvalue) :
  snd (plot_true_model colors parameters)
  = map (fun n => <["bands" := Text n]>
                    (<["output_format" := Text "flux"]> parameters))
        (keys colors)
  /\ fst (plot_true_model colors parameters)
     = match last (keys colors) with
       | Some n => <["bands" := Text n]>
                     (<["output_format" := Text "flux"]> parameters)
       | None => <["output_format" := Text "flux"]> parameters
       end.
Proof.
  unfold plot_true_model.
  induction (keys colors) as [| n names IH] using rev_ind.
  - split; reflexivity.
  - rewrite foldl_app. cbn [foldl fst snd].
    destruct IH as [IHcalls IHstate].
    rewrite IHcalls, map_app, last_snoc. cbn [map].
    assert (Hstate :
      <["bands" := Text n]>
        (foldl (fun st band_name =>
                  (<["bands" := Text band_name]> (fst st),
                   snd st ++ [<["bands" := Text band_name]> (fst st)]))
               (<["output_format" := Text "flux"]> parameters, []) names).1
      = <["bands" := Text n]>
          (<["output_format" := Text "flux"]> parameters)).
    { rewrite IHstate. destruct (last names); [ | reflexivity ].
      apply insert_insert_eq. }
    now rewrite Hstate.
Qed.

End Arrows.

(** ** The notebook: parameters, priors and injection parameters *)

Section Injection.

Import Session.


(** When every key is there, the loop copies the keys and nothing else. *)
Lemma copy_keys_total (ks : list string)
    (parameters start : gmap string pyvalue) :
  (forall k, k ∈ ks -> is_Some (parameters !! k)) ->
  exists inj : gmap string pyvalue,
    copy_keys ks parameters start = (inj, None)
    /\ forall k, inj !! k
                 = if bool_decide (k ∈ ks) then parameters !! k
                   else start !! k.
Proof.
  revert start. induction ks as [| j ks IH]; intros start Hall.
  - exists start. split; [ reflexivity | ]. intros k.
    rewrite bool_decide_eq_false_2; [ reflexivity | ]. intros Hin. inversion Hin.
  - destruct (Hall j) as [v Hj]; [ now left | ].
    cbn [copy_keys]. rewrite Hj.
    destruct (IH (<[j := v]> start)) as [inj [Hinj Hlook]].
    { intros k Hk. apply Hall. now right. }
    exists inj. split; [ exact Hinj | ]. intros k. rewrite Hlook.
    destruct (decide (k ∈ ks)) as [Hin | Hout].
    + rewrite !bool_decide_eq_true_2; [ reflexivity | now right | exact Hin ].
    + rewrite (bool_decide_eq_false_2 _ Hout).
      destruct (decide (j = k)) as [<- | Hne].
      * rewrite lookup_insert_eq, bool_decide_eq_true_2; [ now rewrite Hj | now left ].
      * rewrite lookup_insert_ne by exact Hne.
        rewrite bool_decide_eq_false_2; [ reflexivity | ].
        intros Hin. inversion Hin; subst; contradiction.
Qed.

Lemma prior_keys {prior : Type} (priors : gmap string prior) (k : string) :
  k ∈ map fst (map_to_list priors) <-> k ∈ dom priors.
Proof.
  rewrite elem_of_dom. split.
  - intros Hk. apply list_elem_of_fmap in Hk as [[k' v] [-> Hkv]].
    apply elem_of_map_to_list in Hkv. now exists v.
  - intros [v Hv]. apply list_elem_of_fmap. exists (k, v).
    split; [ reflexivity | now apply elem_of_map_to_list ].
Qed.

(** The injection dictionary, key by key. *)
Lemma injection_parameters_lookup (prior : Type)
    (priors : gmap string prior) (parameters : gmap string pyvalue) :
  dom priors ⊆ dom parameters ->
  exists inj : gmap string pyvalue,
    injection_parameters prior priors parameters = (inj, None)
    /\ forall k, inj !! k
                 = if bool_decide (k ∈ dom priors) then parameters !! k
                   else None.
Proof.
  intros Hdom. unfold injection_parameters.
  destruct (copy_keys_total (map fst (map_to_list priors)) parameters ∅)
    as [inj [Hinj Hlook]].
  { intros k Hk. apply prior_keys in Hk. apply elem_of_dom. now apply Hdom. }
  exists inj. split; [ exact Hinj | ]. intros k. rewrite Hlook.
  destruct (decide (k ∈ dom priors)) as [Hin | Hout].
  - rewrite !bool_decide_eq_true_2; [ reflexivity | exact Hin | ].
    now apply prior_keys.
  - rewrite !bool_decide_eq_false_2; [ apply lookup_empty | exact Hout | ].
    intros Hin. apply Hout. now apply prior_keys.
Qed.

(** X7. When every key of the priors is a key of [parameters], the loop
    that fills [injection_parameters] ends without error, and the
    dictionary it leaves has exactly the keys of the priors, each with the
    value [parameters] has for it: entries of [parameters] that are no
    prior (such as [ra], [dec], [bands]) are not copied. *)
Theorem injection_parameters_restricts (prior : Type)
    (priors : gmap string prior) (parameters : gmap string pyvalue) :
  dom priors ⊆ dom parameters ->
  exists inj : gmap string pyvalue,
    injection_parameters prior priors parameters = (inj, None)
    /\ dom inj = dom priors
    /\ inj ⊆ parameters.
Proof.
  intros Hdom.
  destruct (injection_parameters_lookup prior priors parameters Hdom)
    as [inj [Hinj Hlook]].
  exists inj. split; [ exact Hinj | ]. split.
  - apply set_eq. intros k. rewrite elem_of_dom, Hlook.
    destruct (decide (k ∈ dom priors)) as [Hin | Hout].
    + rewrite (bool_decide_eq_true_2 _ Hin). split; intros _; [ exact Hin | ].
      apply elem_of_dom. now apply Hdom.
    + rewrite (bool_decide_eq_false_2 _ Hout). split; intros H.
      * now destruct H.
      * contradiction.
  - apply map_subseteq_spec. intros k v. rewrite Hlook.
    destruct (bool_decide (k ∈ dom priors)); [ tauto | discriminate ].
Qed.

Lemma injection_parameters_restricts_witness :
  exists inj : gmap string pyvalue,
    injection_parameters Datatypes.unit {["mej" := tt]}
      (<["mej" := Number 10]> {["ra" := Number 1.2]}) = (inj, None)
    /\ dom inj = dom ({["mej" := tt]} : gmap string Datatypes.unit)
    /\ inj ⊆ <["mej" := Number 10]> {["ra" := Number 1.2]}.
Proof.
  apply (injection_parameters_restricts Datatypes.unit {["mej" := tt]}
           (<["mej" := Number 10]> {["ra" := Number 1.2]})).
  apply (bool_decide_unpack _). vm_compute. exact I.
Defined.



Ltac through_inserts :=
  repeat (rewrite lookup_insert_ne by discriminate);
  try rewrite lookup_insert_eq.

Lemma fixed_keys (k : string) :
  k ∈ ({[ "redshift"; "kappa"; "kappa_gamma" ]} : gset string) <->
  k = "redshift" \/ k = "kappa" \/ k = "kappa_gamma".
Proof.
  rewrite !elem_of_union, !elem_of_singleton. tauto.
Qed.

Lemma dom_fixed {prior : Type} (priors : gmap string prior)
    (a b c d : prior) :
  "vej" ∈ dom priors ->
  dom (<["vej" := d]>
         (<["kappa_gamma" := c]>
            (<["kappa" := b]> (<["redshift" := a]> priors))))
  = dom priors ∪ {[ "redshift"; "kappa"; "kappa_gamma" ]}.
Proof.
  intros Hin. rewrite !dom_insert_L. apply set_eq. intros k.
  rewrite !elem_of_union, !elem_of_singleton.
  split; [ | tauto ].
  intros [-> | [-> | [-> | [-> | Hk]]]]; tauto.
Qed.

(** The parameters after the cell that prepares them and the loop that
    draws the true model. *)
Lemma parameters_ready (sample : gmap string pyvalue) :
  exists p : gmap string pyvalue,
    set_parameters sample = Some p
    /\ fst (plot_true_model band_colors p) !! "redshift"
       = Some (Number 0.32)
    /\ fst (plot_true_model band_colors p) !! "kappa" = Some (Number 0.34)
    /\ fst (plot_true_model band_colors p) !! "kappa_gamma"
       = Some (Number 1e-2)
    /\ fst (plot_true_model band_colors p) !! "vej" = Some (Number 2500)
    /\ forall k, k ∈ dom sample ->
                 is_Some (fst (plot_true_model band_colors p) !! k).
Proof.
  unfold set_parameters.
  rewrite lookup_insert_ne by discriminate.
  rewrite lookup_insert_eq. cbn [mbind option_bind].
  eexists. split; [ reflexivity | ].
  cbn [plot_true_model keys band_colors map fst snd foldl].
  repeat split; try (now through_inserts).
  intros k Hin.
  repeat (apply lookup_insert_is_Some'; right).
  now apply elem_of_dom.
Qed.

(** Fixing the priors, for [parameters] that have the three values. *)
Lemma fix_priors_steps (prior : Type) (plain : pyvalue -> prior)
    (set_maximum : Q -> prior -> option prior)
    (priors : gmap string prior) (parameters : gmap string pyvalue)
    (z k g : pyvalue) :
  parameters !! "redshift" = Some z ->
  parameters !! "kappa" = Some k ->
  parameters !! "kappa_gamma" = Some g ->
  fix_priors prior plain set_maximum priors parameters
  = match priors !! "vej" with
    | Some v =>
        match set_maximum 8000%Q v with
        | Some v' =>
            Returned (<["vej" := v']>
                        (<["kappa_gamma" := plain g]>
                           (<["kappa" := plain k]>
                              (<["redshift" := plain z]> priors))))
        | None => Raised SetterError
        end
    | None => Raised (KeyError "vej")
    end.
Proof.
  intros Hz Hk Hg. unfold fix_priors, getitem.
  rewrite Hz, Hk, Hg. cbn [mbind raised_bind].
  rewrite !lookup_insert_ne by discriminate.
  now destruct (priors !! "vej").
Qed.

(** Fixing the priors and filling the injection dictionary, for any
    [parameters] that have what the two steps read. *)
Lemma fit_cell_filled (prior : Type) (plain : pyvalue -> prior)
    (set_maximum : Q -> prior -> option prior)
    (priors : gmap string prior) (parameters : gmap string pyvalue)
    (v v' : prior) (z k g : pyvalue) :
  parameters !! "redshift" = Some z ->
  parameters !! "kappa" = Some k ->
  parameters !! "kappa_gamma" = Some g ->
  (forall key, key ∈ dom priors -> is_Some (parameters !! key)) ->
  priors !! "vej" = Some v ->
  set_maximum 8000%Q v = Some v' ->
  exists inj : gmap string pyvalue,
    fit_cell prior plain set_maximum priors parameters
    = Returned (inj, None)
    /\ dom inj = dom priors ∪ {[ "redshift"; "kappa"; "kappa_gamma" ]}
    /\ forall key, key ∈ dom inj -> inj !! key = parameters !! key.
Proof.
  intros Hz Hk Hg Hhas Hvej Hmax.
  assert (Hin_vej : "vej" ∈ dom priors) by (apply elem_of_dom; eauto).
  unfold fit_cell.
  rewrite (fix_priors_steps prior plain set_maximum priors parameters z k g
             Hz Hk Hg), Hvej, Hmax.
  cbn [mbind raised_bind].
  pose proof (dom_fixed priors (plain z) (plain k) (plain g) v' Hin_vej)
    as Hfixed.
  set (fixed := <["vej" := v']> _) in *. clearbody fixed.
  assert (Hall : forall key, key ∈ dom fixed -> is_Some (parameters !! key)).
  { intros key Hin. rewrite Hfixed in Hin.
    apply elem_of_union in Hin as [Hin | Hin].
    - now apply Hhas.
    - apply fixed_keys in Hin as [-> | [-> | ->]]; eauto. }
  destruct (injection_parameters_lookup prior fixed parameters)
    as [inj [Hinj Hlook]].
  { intros key Hin. apply elem_of_dom. now apply Hall. }
  exists inj. split; [ now rewrite Hinj | ].
  assert (Hdom : dom inj = dom fixed).
  { apply set_eq. intros key. rewrite elem_of_dom, Hlook.
    destruct (decide (key ∈ dom fixed)) as [Hin | Hout].
    - rewrite (bool_decide_eq_true_2 _ Hin).
      split; intros _; [ exact Hin | now apply Hall ].
    - rewrite (bool_decide_eq_false_2 _ Hout). split; intros H.
      + now destruct H.
      + contradiction. }
  split; [ now rewrite Hdom | ].
  intros key Hin. rewrite Hdom in Hin. rewrite Hlook.
  now rewrite bool_decide_eq_true_2.
Qed.

(** X9. The notebook's own run of these cells raises no [KeyError]: for
    any sample that has a value for every prior of the model (what
    sampling the priors gives) and any priors with a [vej] whose maximum
    can be set, the parameters are prepared, the priors are fixed and the
    injection dictionary is filled. It has the keys of the model's priors
    and of the three fixed ones, and carries the values set by hand:
    redshift 0.32, kappa 0.34, kappa_gamma 1e-2 and vej 2500, not the
    sampled ones. *)
Theorem notebook_injection (prior : Type) (plain : pyvalue -> prior)
    (set_maximum : Q -> prior -> option prior)
    (priors : gmap string prior) (sample : gmap string pyvalue)
    (v v' : prior) :
  dom priors ⊆ dom sample ->
  priors !! "vej" = Some v ->
  set_maximum 8000%Q v = Some v' ->
  exists p inj : gmap string pyvalue,
    set_parameters sample = Some p
    /\ fit_cell prior plain set_maximum priors
         (fst (plot_true_model band_colors p)) = Returned (inj, None)
    /\ dom inj = dom priors ∪ {[ "redshift"; "kappa"; "kappa_gamma" ]}
    /\ inj !! "redshift" = Some (Number 0.32)
    /\ inj !! "kappa" = Some (Number 0.34)
    /\ inj !! "kappa_gamma" = Some (Number 1e-2)
    /\ inj !! "vej" = Some (Number 2500).
Proof.
  intros Hdom Hvej Hmax.
  destruct (parameters_ready sample) as [p [Hp [Hz [Hk [Hg [Hv Hhas]]]]]].
  destruct (fit_cell_filled prior plain set_maximum priors
              (fst (plot_true_model band_colors p)) v v' _ _ _
              Hz Hk Hg) as [inj [Hinj [Hkeys Hsame]]];
    [ intros key Hin; apply Hhas, Hdom, Hin | exact Hvej | exact Hmax | ].
  exists p, inj. split; [ exact Hp | ]. split; [ exact Hinj | ].
  split; [ exact Hkeys | ].
  assert (Hin_vej : "vej" ∈ dom priors) by (apply elem_of_dom; eauto).
  rewrite !Hsame.
  - now rewrite Hz, Hk, Hg, Hv.
  - rewrite Hkeys. apply elem_of_union. now left.
  - rewrite Hkeys. apply elem_of_union. right. apply fixed_keys. tauto.
  - rewrite Hkeys. apply elem_of_union. right. apply fixed_keys. tauto.
  - rewrite Hkeys. apply elem_of_union. right. apply fixed_keys. tauto.
Qed.

(** X10. When [parameters] has its redshift, kappa and kappa_gamma but the
    priors of the model have no [vej], the three priors are fixed and the
    cell then stops at [priors['vej'].maximum = 8000] with the [KeyError]
    of ['vej'], before [injection_parameters] is created. *)
Theorem fit_cell_needs_vej (prior : Type) (plain : pyvalue -> prior)
    (set_maximum : Q -> prior -> option prior)
    (priors : gmap string prior) (parameters : gmap string pyvalue) :
  is_Some (parameters !! "redshift") ->
  is_Some (parameters !! "kappa") ->
  is_Some (parameters !! "kappa_gamma") ->
  priors !! "vej" = None ->
  fix_priors prior plain set_maximum priors parameters
    = Raised (KeyError "vej")
  /\ fit_cell prior plain set_maximum priors parameters
     = Raised (KeyError "vej").
Proof.
  intros [z Hz] [k Hk] [g Hg] Hvej. unfold fit_cell.
  rewrite (fix_priors_steps prior plain set_maximum priors parameters z k g
             Hz Hk Hg), Hvej.
  split; reflexivity.
Qed.

End Injection.

Lemma notebook_injection_witness :
  exists p inj : gmap string Session.pyvalue,
    Session.set_parameters
      (<["vej" := Session.Number 7000]>
         {["f_nickel" := Session.Number 0.3]}) = Some p
    /\ Session.fit_cell (Q * Q) (fun _ => (0, 0)%Q)
         (fun hi pr => Some (fst pr, hi))
         (<["vej" := (1e3, 1e5)%Q]> {["f_nickel" := (1e-3, 1)%Q]})
         (fst (Session.plot_true_model Session.band_colors p))
       = Session.Returned (inj, None)
    /\ dom inj
       = dom (<["vej" := (1e3, 1e5)%Q]> {["f_nickel" := (1e-3, 1)%Q]}
                : gmap string (Q * Q))
         ∪ {[ "redshift"; "kappa"; "kappa_gamma" ]}
    /\ inj !! "redshift" = Some (Session.Number 0.32)
    /\ inj !! "kappa" = Some (Session.Number 0.34)
    /\ inj !! "kappa_gamma" = Some (Session.Number 1e-2)
    /\ inj !! "vej" = Some (Session.Number 2500).
Proof.
  apply (notebook_injection (Q * Q) (fun _ => (0, 0)%Q)
           (fun hi pr => Some (fst pr, hi))
           (<["vej" := (1e3, 1e5)%Q]> {["f_nickel" := (1e-3, 1)%Q]})
           (<["vej" := Session.Number 7000]>
              {["f_nickel" := Session.Number 0.3]})
           (1e3, 1e5)%Q (1e3, 8000)%Q).
  - apply (bool_decide_unpack _). vm_compute. exact I.
  - reflexivity.
  - reflexivity.
Defined.

Lemma fit_cell_needs_vej_witness :
  Session.fix_priors (Q * Q) (fun _ => (0, 0)%Q)
    (fun hi pr => Some (fst pr, hi))
    {["f_nickel" := (1e-3, 1)%Q]}
    (<["redshift" := Session.Number 0.32]>
       (<["kappa" := Session.Number 0.34]>
          {["kappa_gamma" := Session.Number 1e-2]}))
    = Session.Raised (Session.KeyError "vej")
  /\ Session.fit_cell (Q * Q) (fun _ => (0, 0)%Q)
       (fun hi pr => Some (fst pr, hi))
       {["f_nickel" := (1e-3, 1)%Q]}
       (<["redshift" := Session.Number 0.32]>
          (<["kappa" := Session.Number 0.34]>
             {["kappa_gamma" := Session.Number 1e-2]}))
     = Session.Raised (Session.KeyError "vej").
Proof.
  apply (fit_cell_needs_vej (Q * Q) (fun _ => (0, 0)%Q)
           (fun hi pr => Some (fst pr, hi))
           {["f_nickel" := (1e-3, 1)%Q]}
           (<["redshift" := Session.Number 0.32]>
              (<["kappa" := Session.Number 0.34]>
                 {["kappa_gamma" := Session.Number 1e-2]}))).
  - apply (bool_decide_unpack _). vm_compute. exact I.
  - apply (bool_decide_unpack _). vm_compute. exact I.
  - apply (bool_decide_unpack _). vm_compute. exact I.
  - reflexivity.
Defined.

(** ** The notebook: tables without detections, tables without limits *)

Section Extremes.

Import Notebook Session.

Lemma filter_none {B : Type} (m : B -> bool) (l : list B) :
  Forall (fun b => m b = false) l -> List.filter m l = [].
Proof.
  induction 1 as [| b l Hb _ IH]; [ reflexivity | ].
  cbn. now rewrite Hb.
Qed.

Lemma filter_all {B : Type} (m : B -> bool) (l : list B) :
  Forall (fun b => m b = true) l -> List.filter m l = l.
Proof.
  induction 1 as [| b l Hb _ IH]; [ reflexivity | ].
  cbn. now rewrite Hb, IH.
Qed.

Lemma map_agree {A B : Type} (f g : B -> A) (l : list B) :
  Forall (fun b => f b = g b) l -> map f l = map g l.
Proof.
  induction 1 as [| b l Hb _ IH]; [ reflexivity | ].
  cbn. now rewrite Hb, IH.
Qed.

(** X11. When no row of the table is flagged 1 (also for an empty table),
    nothing fails: [y] is the column of limits, every row is an upper
    limit, and the transient is built from four empty arrays. *)
Theorem table_without_detections (data : list observation) :
  Forall (fun r => detected r <> 1%Z) data ->
  y data = Some (limits data)
  /\ upper_limits data = data
  /\ supernova_arrays data = Some ([], [], [], []).
Proof.
  intros Hnone.
  assert (Hflag : Forall (fun r => Z.eqb (detected r) 1 = false) data).
  { eapply Forall_impl; [ exact Hnone | ]. intros r Hr. now apply Z.eqb_neq. }
  split; [ | split ].
  - rewrite y_closed_form. unfold limits. f_equal. apply map_agree.
    eapply Forall_impl; [ exact Hflag | ]. intros r Hr. cbn in Hr.
    now rewrite Hr.
  - unfold upper_limits. apply filter_all.
    eapply Forall_impl; [ exact Hflag | ]. intros r Hr. cbn in Hr.
    now rewrite Hr.
  - unfold supernova_arrays. rewrite detected_mask_rows.
    unfold time, flux, flux_err, bands.
    rewrite !getitem_map. cbn [mbind option_bind].
    rewrite !pick_map_filter. now rewrite (filter_none _ _ Hflag).
Qed.

Lemma table_without_detections_witness :
  y [Observation 4 0 2 "lsstu" 5 0; Observation 6 0 2 "lssty" 7 0]
    = Some [5; 7]%R
  /\ upper_limits [Observation 4 0 2 "lsstu" 5 0;
                   Observation 6 0 2 "lssty" 7 0]
     = [Observation 4 0 2 "lsstu" 5 0; Observation 6 0 2 "lssty" 7 0]
  /\ supernova_arrays [Observation 4 0 2 "lsstu" 5 0;
                       Observation 6 0 2 "lssty" 7 0]
     = Some ([], [], [], []).
Proof.
  apply (table_without_detections
           [Observation 4 0 2 "lsstu" 5 0; Observation 6 0 2 "lssty" 7 0]).
  repeat (apply Forall_cons; split; [ discriminate | ]).
  apply Forall_nil. exact I.
Defined.

(** X12. When every row is flagged 1, [y] is the column of fluxes, there
    is no upper limit, and every scatter call of the non-detections is
    empty: no arrow is drawn. *)
Theorem table_without_limits (data : list observation) :
  Forall (fun r => detected r = 1%Z) data ->
  y data = Some (flux data)
  /\ upper_limits data = []
  /\ exists calls : list scatter,
       plot_non_detections band_colors data = Some calls
       /\ Forall (fun c => xs c = [] /\ ys c = []) calls.
Proof.
  intros Hall.
  assert (Hflag : Forall (fun r => Z.eqb (detected r) 1 = true) data).
  { eapply Forall_impl; [ exact Hall | ]. intros r Hr. now apply Z.eqb_eq. }
  assert (Hlimits : upper_limits data = []).
  { unfold upper_limits. apply filter_none.
    eapply Forall_impl; [ exact Hflag | ]. intros r Hr. cbn in Hr.
    now rewrite Hr. }
  split; [ | split; [ exact Hlimits | ] ].
  - rewrite y_closed_form. unfold flux. f_equal. apply map_agree.
    eapply Forall_impl; [ exact Hflag | ]. intros r Hr. cbn in Hr.
    now rewrite Hr.
  - unfold plot_non_detections. rewrite Hlimits.
    eexists. split; [ reflexivity | ].
    repeat (apply Forall_cons; split; [ split; reflexivity | ]).
    apply Forall_nil. exact I.
Qed.

Lemma table_without_limits_witness :
  y [Observation 1 10 2 "lsstg" 3 1; Observation 2 11 2 "lsstr" 3 1]
    = Some [10; 11]%R
  /\ upper_limits [Observation 1 10 2 "lsstg" 3 1;
                   Observation 2 11 2 "lsstr" 3 1] = []
  /\ exists calls : list scatter,
       plot_non_detections band_colors
         [Observation 1 10 2 "lsstg" 3 1; Observation 2 11 2 "lsstr" 3 1]
       = Some calls
       /\ Forall (fun c => xs c = [] /\ ys c = []) calls.
Proof.
  apply (table_without_limits
           [Observation 1 10 2 "lsstg" 3 1; Observation 2 11 2 "lsstr" 3 1]).
  repeat (apply Forall_cons; split; [ reflexivity | ]).
  apply Forall_nil. exact I.
Defined.

End Extremes.
